(** * The staging stack of dms-infra-test

    A shallow embedding of [infra/lib/staging-stack.ts] (the [StagingStack]
    constructor) and [infra/bin/app.ts] (the app that instantiates it).

    The constructor is imperative: every [new X(this, id, props)] adds a
    child construct to the stack, and later calls ([addToTaskRolePolicy],
    [addContainer], [addPortMappings], [addListener], [addTargets]) mutate
    constructs that were added before.  The embedding keeps that shape: the
    stack's children are an ordered store keyed by construct id, JavaScript
    object references are construct ids, and the constructor body is a
    computation in a small state-and-error monad over that store.

    The classes the constructor instantiates come from the construct
    library, which is outside the repository.  They are modelled as far as
    the stack reads them back: a construct records the properties it was
    given, and the network ([ec2.Vpc]) also has the zones and subnets that
    the stack exports.

    [StagingStack] is the stack the body of the constructor declares; its
    errors are those of the construct tree (an id used twice, a reference
    to a missing construct, a target without a container port).
    [new_StagingStack] adds the checks the library makes on the way: the
    name of the stack, the address block and the subnets carved out of it,
    and the presence of a public subnet for the NAT gateway. *)

From Stdlib Require Import String Ascii List ZArith Lia Bool DecimalString.
Import ListNotations.
Local Open Scope string_scope.
Local Open Scope list_scope.

(* ===================================================================== *)
(** ** TypeScript idioms *)
(* ===================================================================== *)

(** [a ?? d]: the default replaces [undefined] only (so [0] is kept). *)
Definition nullish {A : Type} (a : option A) (d : A) : A :=
  match a with
  | Some v => v
  | None => d
  end.

(** [props?.f] on an optional record with an optional field. *)
Definition optChain {P A : Type} (props : option P) (f : P -> option A)
  : option A :=
  match props with
  | Some p => f p
  | None => None
  end.

(** [Array.prototype.slice(0, end)] for an integer [end]: a negative [end]
    counts from the back, and the result never exceeds the array. *)
Definition slice0 {A : Type} (e : Z) (l : list A) : list A :=
  let len := Z.of_nat (length l) in
  let final := if (e <? 0)%Z then Z.max (len + e) 0 else Z.min e len in
  firstn (Z.to_nat final) l.

(** Decimal rendering of an index, as in a template string. *)
Definition showNat (n : nat) : string :=
  NilZero.string_of_uint (Nat.to_uint n).

(* ===================================================================== *)
(** ** The construct library, as far as the stack uses it *)
(* ===================================================================== *)

(** A construct is referred to by the id it was given in its scope. *)
Definition Ref := string.

Module cdk.

(** Values handed to the provisioning engine: a literal, an attribute of a
    construct that is resolved at deployment, a pseudo parameter of the
    engine, or the joined ids of a list of constructs. *)
Inductive Value :=
| Literal (s : string)
| Attr (construct : Ref) (attribute : string)
| Pseudo (parameter : string)
| Join (separator : string) (ids : list string).

Inductive RemovalPolicy := DESTROY | RETAIN | SNAPSHOT.

Record Environment := {
  account : option string;
  region : option string
}.

Record CfnOutputProps := { value : Value }.

End cdk.

Module ec2.

Inductive SubnetType := PUBLIC | PRIVATE_WITH_NAT | PRIVATE_ISOLATED.

Definition SubnetType_eqb (a b : SubnetType) : bool :=
  match a, b with
  | PUBLIC, PUBLIC => true
  | PRIVATE_WITH_NAT, PRIVATE_WITH_NAT => true
  | PRIVATE_ISOLATED, PRIVATE_ISOLATED => true
  | _, _ => false
  end.

Record SubnetConfiguration := {
  name : string;
  subnetType : SubnetType;
  cidrMask : Z
}.

Record VpcProps := {
  cidr : string;
  maxAzs : Z;
  natGateways : Z;
  subnetConfiguration : list SubnetConfiguration
}.

(** One subnet of the network: the group it was declared in, its zone and
    the id under which the network registers it. *)
Record Subnet := {
  subnetId : string;
  availabilityZone : string;
  group : SubnetConfiguration
}.

Record Vpc := {
  props : VpcProps;
  availabilityZones : list string;
  publicSubnets : list Subnet;
  privateSubnets : list Subnet;
  isolatedSubnets : list Subnet
}.

(** A group of the subnet configuration yields one subnet in every zone of
    the network, numbered from 1. *)
Definition subnetsOfGroup (zones : list string) (g : SubnetConfiguration)
  : list Subnet :=
  map (fun iz : nat * string =>
         {| subnetId := name g ++ "Subnet" ++ showNat (S (fst iz));
            availabilityZone := snd iz;
            group := g |})
      (combine (seq 0 (length zones)) zones).

Definition ofType (t : SubnetType) (s : Subnet) : bool :=
  SubnetType_eqb (subnetType (group s)) t.

(** [new ec2.Vpc(scope, id, props)].  The class belongs to the construct
    library, not to this repository; what the stack relies on is its
    documented behaviour: [maxAzs] is the MAXIMUM number of zones, so the
    network spans the zones of the stack's environment cut to the first
    [maxAzs] ([stack.availabilityZones.slice(0, maxAzs)]), and every group
    of [subnetConfiguration] gets one subnet per zone.  [stackZones] are
    the zones the environment of the stack offers.  This is the network the
    library builds when it accepts the properties; what it refuses is
    decided by [checkVpc] below. *)
Definition newVpc (stackZones : list string) (p : VpcProps) : Vpc :=
  let zones := slice0 (maxAzs p) stackZones in
  let subnets := flat_map (subnetsOfGroup zones) (subnetConfiguration p) in
  {| props := p;
     availabilityZones := zones;
     publicSubnets := filter (ofType PUBLIC) subnets;
     privateSubnets := filter (ofType PRIVATE_WITH_NAT) subnets;
     isolatedSubnets := filter (ofType PRIVATE_ISOLATED) subnets |}.

Definition allSubnets (v : Vpc) : list Subnet :=
  publicSubnets v ++ privateSubnets v ++ isolatedSubnets v.

(** [vpc.selectSubnets({ subnetType: PUBLIC })] and [vpc.selectSubnets()]:
    without a type the private subnets are taken, the isolated ones when
    there is no private one, the public ones when there is neither. *)
Definition selectPublic (v : Vpc) : list Subnet := publicSubnets v.

Definition selectDefault (v : Vpc) : list Subnet :=
  match privateSubnets v, isolatedSubnets v with
  | _ :: _, _ => privateSubnets v
  | [], _ :: _ => isolatedSubnets v
  | [], [] => publicSubnets v
  end.

(** The default route of a subnet leaves through the NAT gateway exactly
    when the subnet was declared [PRIVATE_WITH_NAT]. *)
Definition routedThroughNat (s : Subnet) : bool :=
  ofType PRIVATE_WITH_NAT s.

End ec2.

Module s3.

Record BucketProps := {
  bucketName : string;
  removalPolicy : cdk.RemovalPolicy;
  autoDeleteObjects : bool
}.

End s3.

Module sqs.

Record DeadLetterQueue := {
  queue : Ref;
  maxReceiveCount : Z
}.

Record QueueProps := {
  queueName : string;
  deadLetterQueue : option DeadLetterQueue
}.

End sqs.

Module iam.

Record PolicyStatement := {
  actions : list string;
  resources : list string
}.

End iam.

Module logs.

Inductive RetentionDays := ONE_DAY | ONE_WEEK | ONE_MONTH.

End logs.

Module ecs.

Record ClusterProps := {
  vpc : Ref;
  clusterName : string
}.

Record AwsLogDriverProps := {
  streamPrefix : string;
  logRetention : logs.RetentionDays
}.

Record PortMapping := { containerPort : Z }.

Record ContainerDefinitionOptions := {
  image : Ref;
  logging : AwsLogDriverProps;
  environment : list (string * cdk.Value)
}.

(** A container of a task definition: its options and the port mappings
    added to it afterwards. *)
Record ContainerDefinition := {
  containerId : string;
  options : ContainerDefinitionOptions;
  portMappings : list PortMapping
}.

Record FargateTaskDefinitionProps := {
  cpu : Z;
  memoryLimitMiB : Z
}.

(** A task definition: its properties, the statements added to the policy
    of its task role, and its containers. *)
Record FargateTaskDefinition := {
  taskProps : FargateTaskDefinitionProps;
  taskRolePolicy : list iam.PolicyStatement;
  containers : list ContainerDefinition
}.

Record FargateServiceProps := {
  cluster : Ref;
  taskDefinition : Ref;
  desiredCount : Z;
  assignPublicIp : bool
}.

(** The entry a service gets when it is made the target of a target group:
    the group, and the container and port its tasks are reached at. *)
Module LoadBalancer.
Record t := {
  targetGroup : string;
  containerName : string;
  containerPort : Z
}.
End LoadBalancer.

(** A service: its properties, the subnets its tasks are placed in, and
    the target groups it has been registered in afterwards. *)
Record FargateService := {
  serviceProps : FargateServiceProps;
  subnets : list string;
  loadBalancers : list LoadBalancer.t
}.

End ecs.

Module elbv2.

Record HealthCheck := {
  path : string;
  healthyHttpCodes : string
}.

Module AddApplicationTargetsProps.
Record t := {
  port : Z;
  targets : list Ref;
  healthCheck : HealthCheck
}.
End AddApplicationTargetsProps.

Module RedirectOptions.
Record t := {
  protocol : string;
  port : string;
  permanent : bool
}.
End RedirectOptions.

Inductive ListenerAction :=
| redirect (o : RedirectOptions.t).

Module BaseApplicationListenerProps.
Record t := {
  port : Z;
  certificates : list Ref;
  open : bool;
  defaultAction : option ListenerAction
}.
End BaseApplicationListenerProps.

(** A listener of the load balancer: its properties and the target groups
    added to it afterwards, each under its id. *)
Record ApplicationListener := {
  listenerId : string;
  listenerProps : BaseApplicationListenerProps.t;
  targetGroups : list (string * AddApplicationTargetsProps.t)
}.

Record ApplicationLoadBalancerProps := {
  vpc : Ref;
  internetFacing : bool
}.

(** A load balancer: its properties, the subnets it is placed in, and
    the listeners added to it afterwards. *)
Record ApplicationLoadBalancer := {
  albProps : ApplicationLoadBalancerProps;
  subnets : list string;
  listeners : list ApplicationListener
}.

End elbv2.

(* ===================================================================== *)
(** ** The construct tree and the monad of the constructor *)
(* ===================================================================== *)

(** The children a stack can have. *)
Inductive Construct :=
| Vpc (v : ec2.Vpc)
| Bucket (p : s3.BucketProps)
| Queue (p : sqs.QueueProps)
| Cluster (p : ecs.ClusterProps)
| FargateTaskDefinition (t : ecs.FargateTaskDefinition)
| Repository (repositoryName : string)
| FargateService (svc : ecs.FargateService)
| ApplicationLoadBalancer (a : elbv2.ApplicationLoadBalancer)
| Certificate (certificateArn : string)
| CfnOutput (p : cdk.CfnOutputProps)
| CustomResourceProvider (resourceType : string).

(** Children in the order they were added, each under its id. *)
Definition Children := list (Ref * Construct).

Inductive Result (A : Type) :=
| Ok (a : A)
| Err (message : string).
Arguments Ok {A} a.
Arguments Err {A} message.

(** A step of the constructor: it reads and extends the children of the
    stack under construction, or throws. *)
Definition Build (A : Type) := Children -> Result (A * Children).

Definition ret {A : Type} (a : A) : Build A :=
  fun cs => Ok (a, cs).

Definition bind {A B : Type} (m : Build A) (k : A -> Build B) : Build B :=
  fun cs =>
    match m cs with
    | Ok (a, cs') => k a cs'
    | Err e => Err e
    end.

Declare Scope build_scope.
Delimit Scope build_scope with build.
Notation "x <- m ;; k" := (bind m (fun x => k))
  (at level 61, m at next level, right associativity) : build_scope.
Notation "m ;;; k" := (bind m (fun _ => k))
  (at level 61, right associativity) : build_scope.

Definition throw {A : Type} (message : string) : Build A :=
  fun _ => Err message.

Fixpoint lookup {V : Type} (id : string) (l : list (string * V)) : option V :=
  match l with
  | [] => None
  | (k, v) :: rest => if String.eqb k id then Some v else lookup id rest
  end.

(** Replace the value stored under [id] (the first one, ids being unique). *)
Fixpoint replace {V : Type} (id : string) (v : V) (l : list (string * V))
  : list (string * V) :=
  match l with
  | [] => []
  | (k, w) :: rest =>
      if String.eqb k id then (k, v) :: rest else (k, w) :: replace id v rest
  end.

(** [new X(this, id, ...)]: the scope refuses a second child with an id it
    already has; the new object is known by its id from then on. *)
Definition addChild (id : string) (c : Construct) : Build Ref :=
  fun cs =>
    match lookup id cs with
    | Some _ => Err ("There is already a Construct with name '" ++ id ++ "'")
    | None => Ok (id, cs ++ [(id, c)])
    end.

(** Dereference an object. *)
Definition get (r : Ref) : Build Construct :=
  fun cs =>
    match lookup r cs with
    | Some c => Ok (c, cs)
    | None => Err ("No construct '" ++ r ++ "'")
    end.

(** Mutate an object in place: every holder of the reference sees it. *)
Definition put (r : Ref) (c : Construct) : Build unit :=
  fun cs => Ok (tt, replace r c cs).

Local Open Scope build_scope.

(* ===================================================================== *)
(** ** Constructors and methods of the construct library *)
(* ===================================================================== *)

(** The scope a stack is created in: what matters of it here are the zones
    it resolves for the environment of the stack
    ([Stack.availabilityZones]) and the account and region of the stage
    that encloses the stack, if that stage has any. *)
Record Scope := {
  availabilityZones : list string;
  stageAccount : option string;
  stageRegion : option string
}.

Definition new_Vpc (scope : Scope) (id : string) (p : ec2.VpcProps)
  : Build Ref :=
  addChild id (Vpc (ec2.newVpc (availabilityZones scope) p)).

Definition readVpc (r : Ref) : Build ec2.Vpc :=
  c <- get r ;;
  match c with
  | Vpc v => ret v
  | _ => throw ("'" ++ r ++ "' is not a Vpc")
  end.

(** [CustomResourceProvider.getOrCreateProvider(stack, type)]: the stack
    has one provider per resource type, made when it is first asked for. *)
Definition getOrCreateProvider (resourceType : string) : Build unit :=
  fun cs =>
    match lookup resourceType cs with
    | Some _ => Ok (tt, cs)
    | None => Ok (tt, cs ++ [(resourceType, CustomResourceProvider resourceType)])
    end.

(** [new s3.Bucket(this, id, props)]: a bucket that deletes its objects
    must be one that is destroyed, and needs the provider that deletes
    them. *)
Definition new_Bucket (id : string) (p : s3.BucketProps) : Build Ref :=
  bucket <- addChild id (Bucket p) ;;
  (if s3.autoDeleteObjects p
   then
     match s3.removalPolicy p with
     | cdk.DESTROY =>
         getOrCreateProvider "Custom::S3AutoDeleteObjectsCustomResourceProvider"
     | _ =>
         throw "Cannot use 'autoDeleteObjects' property on a bucket without setting removal policy to 'DESTROY'."
     end
   else ret tt) ;;;
  ret bucket.

Definition new_Queue (id : string) (p : sqs.QueueProps) : Build Ref :=
  addChild id (Queue p).

Definition new_Cluster (id : string) (p : ecs.ClusterProps) : Build Ref :=
  addChild id (Cluster p).

Definition new_FargateTaskDefinition (id : string)
  (p : ecs.FargateTaskDefinitionProps) : Build Ref :=
  addChild id (FargateTaskDefinition
                 {| ecs.taskProps := p;
                    ecs.taskRolePolicy := [];
                    ecs.containers := [] |}).

Definition readTaskDef (r : Ref) : Build ecs.FargateTaskDefinition :=
  c <- get r ;;
  match c with
  | FargateTaskDefinition t => ret t
  | _ => throw ("'" ++ r ++ "' is not a task definition")
  end.

(** [taskDef.addToTaskRolePolicy(statement)] *)
Definition addToTaskRolePolicy (taskDef : Ref) (st : iam.PolicyStatement)
  : Build unit :=
  t <- readTaskDef taskDef ;;
  put taskDef (FargateTaskDefinition
                 {| ecs.taskProps := ecs.taskProps t;
                    ecs.taskRolePolicy := ecs.taskRolePolicy t ++ [st];
                    ecs.containers := ecs.containers t |}).

Definition Repository_fromRepositoryName (id : string) (name : string)
  : Build Ref :=
  addChild id (Repository name).

(** A container is known by its task definition and its own id. *)
Definition ContainerRef := (Ref * string)%type.

(** [taskDef.addContainer(id, options)] *)
Definition addContainer (taskDef : Ref) (id : string)
  (o : ecs.ContainerDefinitionOptions) : Build ContainerRef :=
  t <- readTaskDef taskDef ;;
  if existsb (fun c => String.eqb (ecs.containerId c) id) (ecs.containers t)
  then throw ("There is already a Construct with name '" ++ id ++ "'")
  else
    put taskDef (FargateTaskDefinition
                   {| ecs.taskProps := ecs.taskProps t;
                      ecs.taskRolePolicy := ecs.taskRolePolicy t;
                      ecs.containers :=
                        ecs.containers t ++
                        [{| ecs.containerId := id;
                            ecs.options := o;
                            ecs.portMappings := [] |}] |}) ;;;
    ret (taskDef, id).

(** [container.addPortMappings(mapping)] *)
Definition addPortMappings (container : ContainerRef) (m : ecs.PortMapping)
  : Build unit :=
  let (taskDef, id) := container in
  t <- readTaskDef taskDef ;;
  put taskDef (FargateTaskDefinition
                 {| ecs.taskProps := ecs.taskProps t;
                    ecs.taskRolePolicy := ecs.taskRolePolicy t;
                    ecs.containers :=
                      map (fun c =>
                             if String.eqb (ecs.containerId c) id
                             then {| ecs.containerId := ecs.containerId c;
                                     ecs.options := ecs.options c;
                                     ecs.portMappings :=
                                       ecs.portMappings c ++ [m] |}
                             else c)
                          (ecs.containers t) |}).

Definition readCluster (r : Ref) : Build ecs.ClusterProps :=
  c <- get r ;;
  match c with
  | Cluster p => ret p
  | _ => throw ("'" ++ r ++ "' is not a cluster")
  end.

(** [new ecs.FargateService(this, id, props)]: the tasks are placed in the
    network of the cluster, in its public subnets when they get a public
    address and in the default selection otherwise. *)
Definition new_FargateService (id : string) (p : ecs.FargateServiceProps)
  : Build Ref :=
  cl <- readCluster (ecs.cluster p) ;;
  v <- readVpc (ecs.vpc cl) ;;
  addChild id (FargateService
                 {| ecs.serviceProps := p;
                    ecs.subnets :=
                      map ec2.subnetId
                          (if ecs.assignPublicIp p
                           then ec2.selectPublic v
                           else ec2.selectDefault v);
                    ecs.loadBalancers := [] |}).

Definition readService (r : Ref) : Build ecs.FargateService :=
  c <- get r ;;
  match c with
  | FargateService svc => ret svc
  | _ => throw ("'" ++ r ++ "' is not a service")
  end.

(** [new elbv2.ApplicationLoadBalancer(this, id, props)]: an
    internet-facing load balancer is placed in the public subnets of its
    network, another one in the default selection. *)
Definition new_ApplicationLoadBalancer (id : string)
  (p : elbv2.ApplicationLoadBalancerProps) : Build Ref :=
  v <- readVpc (elbv2.vpc p) ;;
  addChild id (ApplicationLoadBalancer
                 {| elbv2.albProps := p;
                    elbv2.subnets :=
                      map ec2.subnetId
                          (if elbv2.internetFacing p
                           then ec2.selectPublic v
                           else ec2.selectDefault v);
                    elbv2.listeners := [] |}).

Definition readAlb (r : Ref) : Build elbv2.ApplicationLoadBalancer :=
  c <- get r ;;
  match c with
  | ApplicationLoadBalancer a => ret a
  | _ => throw ("'" ++ r ++ "' is not a load balancer")
  end.

Definition Certificate_fromCertificateArn (id : string) (arn : string)
  : Build Ref :=
  addChild id (Certificate arn).

(** A listener is known by its load balancer and its own id. *)
Definition ListenerRef := (Ref * string)%type.

(** [alb.addListener(id, props)] *)
Definition addListener (alb : Ref) (id : string)
  (p : elbv2.BaseApplicationListenerProps.t) : Build ListenerRef :=
  a <- readAlb alb ;;
  if existsb (fun l => String.eqb (elbv2.listenerId l) id) (elbv2.listeners a)
  then throw ("There is already a Construct with name '" ++ id ++ "'")
  else
    put alb (ApplicationLoadBalancer
               {| elbv2.albProps := elbv2.albProps a;
                  elbv2.subnets := elbv2.subnets a;
                  elbv2.listeners :=
                    elbv2.listeners a ++
                    [{| elbv2.listenerId := id;
                        elbv2.listenerProps := p;
                        elbv2.targetGroups := [] |}] |}) ;;;
    ret (alb, id).

(** [service.attachToApplicationTargetGroup(group)]: the service enters
    the group with its default container, the first of its task definition,
    at the first port that container maps; a task definition without a
    container or a container without a port mapping cannot be a target. *)
Definition attachToApplicationTargetGroup (service : Ref) (group : string)
  : Build unit :=
  svc <- readService service ;;
  t <- readTaskDef (ecs.taskDefinition (ecs.serviceProps svc)) ;;
  match ecs.containers t with
  | [] => throw "A task definition must have a default container to be a load balancer target"
  | c :: _ =>
      match ecs.portMappings c with
      | [] =>
          throw ("Container '" ++ ecs.containerId c ++
                 "' hasn't defined any ports. Call addPortMappings().")
      | m :: _ =>
          put service
              (FargateService
                 {| ecs.serviceProps := ecs.serviceProps svc;
                    ecs.subnets := ecs.subnets svc;
                    ecs.loadBalancers :=
                      ecs.loadBalancers svc ++
                      [{| ecs.LoadBalancer.targetGroup := group;
                          ecs.LoadBalancer.containerName := ecs.containerId c;
                          ecs.LoadBalancer.containerPort :=
                            ecs.containerPort m |}] |})
      end
  end.

Fixpoint forEach {A : Type} (f : A -> Build unit) (l : list A) : Build unit :=
  match l with
  | [] => ret tt
  | a :: rest => f a ;;; forEach f rest
  end.

(** [listener.addTargets(id, props)]: the listener gets the target group,
    and every target is attached to it. *)
Definition addTargets (listener : ListenerRef) (id : string)
  (p : elbv2.AddApplicationTargetsProps.t) : Build unit :=
  let (alb, lid) := listener in
  a <- readAlb alb ;;
  forEach (fun target => attachToApplicationTargetGroup target id)
          (elbv2.AddApplicationTargetsProps.targets p) ;;;
  put alb (ApplicationLoadBalancer
             {| elbv2.albProps := elbv2.albProps a;
                elbv2.subnets := elbv2.subnets a;
                elbv2.listeners :=
                  map (fun l =>
                         if String.eqb (elbv2.listenerId l) lid
                         then {| elbv2.listenerId := elbv2.listenerId l;
                                 elbv2.listenerProps := elbv2.listenerProps l;
                                 elbv2.targetGroups :=
                                   elbv2.targetGroups l ++ [(id, p)] |}
                         else l)
                      (elbv2.listeners a) |}).

Definition new_CfnOutput (id : string) (p : cdk.CfnOutputProps) : Build Ref :=
  addChild id (CfnOutput p).

(** Attributes of constructs that the engine resolves at deployment. *)
Definition bucketName (bucket : Ref) : cdk.Value := cdk.Attr bucket "bucketName".
Definition queueUrl (queue : Ref) : cdk.Value := cdk.Attr queue "queueUrl".
Definition loadBalancerDnsName (alb : Ref) : cdk.Value :=
  cdk.Attr alb "loadBalancerDnsName".
Definition vpcCidrBlock (vpc : Ref) : cdk.Value := cdk.Attr vpc "vpcCidrBlock".

(* ===================================================================== *)
(** ** [infra/lib/staging-stack.ts] *)
(* ===================================================================== *)

(** [interface StagingStackProps extends cdk.StackProps]: every field is
    optional; [env] is the one inherited field the app sets.  The numeric
    options are integers here; a [number] with a fraction is outside the
    model. *)
Record StagingStackProps := {
  env : option cdk.Environment;
  vpcCidr : option string;
  publicSubnetMask : option Z;
  privateSubnetMask : option Z;
  maxAzs : option Z
}.

(** A constructed stack: its id, its account and region, and its
    children. *)
Record Stack := {
  stackId : string;
  account : cdk.Value;
  region : cdk.Value;
  children : Children
}.

(** [this.region]: the region of the environment when one is given, else
    that of the enclosing stage, else the engine's pseudo parameter. *)
Definition stackRegion (scope : Scope) (props : option StagingStackProps)
  : cdk.Value :=
  match optChain (optChain props env) cdk.region, stageRegion scope with
  | Some r, _ => cdk.Literal r
  | None, Some r => cdk.Literal r
  | None, None => cdk.Pseudo "AWS::Region"
  end.

(** [this.account], resolved the same way. *)
Definition stackAccount (scope : Scope) (props : option StagingStackProps)
  : cdk.Value :=
  match optChain (optChain props env) cdk.account, stageAccount scope with
  | Some a, _ => cdk.Literal a
  | None, Some a => cdk.Literal a
  | None, None => cdk.Pseudo "AWS::AccountId"
  end.

(** The body of the constructor, statement by statement. *)
Definition constructor (scope : Scope) (this_region : cdk.Value)
  (props : option StagingStackProps) : Build unit :=
  (* Configurable Settings *)
  let vpcCidr := nullish (optChain props vpcCidr) "10.0.0.0/16" in
  let publicSubnetMask := nullish (optChain props publicSubnetMask) 24%Z in
  let privateSubnetMask := nullish (optChain props privateSubnetMask) 24%Z in
  let maxAzs := nullish (optChain props maxAzs) 2%Z in
  (* VPC *)
  vpc <- new_Vpc scope "Vpc"
           {| ec2.cidr := vpcCidr;
              ec2.maxAzs := maxAzs;
              ec2.natGateways := 1;
              ec2.subnetConfiguration :=
                [ {| ec2.name := "Public";
                     ec2.subnetType := ec2.PUBLIC;
                     ec2.cidrMask := publicSubnetMask |};
                  {| ec2.name := "Private";
                     ec2.subnetType := ec2.PRIVATE_WITH_NAT;
                     ec2.cidrMask := privateSubnetMask |} ] |} ;;
  (* S3 Buckets *)
  docsBucket <- new_Bucket "DocsBucket"
                  {| s3.bucketName := "lizdms-staging-docs";
                     s3.removalPolicy := cdk.DESTROY;
                     s3.autoDeleteObjects := true |} ;;
  outputsBucket <- new_Bucket "OutputsBucket"
                     {| s3.bucketName := "lizdms-staging-outputs";
                        s3.removalPolicy := cdk.DESTROY;
                        s3.autoDeleteObjects := true |} ;;
  (* SQS + DLQ *)
  dlq <- new_Queue "ProcessingDLQ"
           {| sqs.queueName := "lizdms-staging-processing-dlq";
              sqs.deadLetterQueue := None |} ;;
  queue <- new_Queue "ProcessingQueue"
             {| sqs.queueName := "lizdms-staging-processing";
                sqs.deadLetterQueue :=
                  Some {| sqs.queue := dlq; sqs.maxReceiveCount := 3 |} |} ;;
  (* ECS Cluster *)
  cluster <- new_Cluster "Cluster"
               {| ecs.vpc := vpc;
                  ecs.clusterName := "lizdms-staging-cluster" |} ;;
  (* Task Definition *)
  taskDef <- new_FargateTaskDefinition "TaskDef"
               {| ecs.cpu := 256; ecs.memoryLimitMiB := 512 |} ;;
  addToTaskRolePolicy taskDef
    {| iam.actions := ["s3:GetObject"; "s3:PutObject"; "sqs:SendMessage"];
       iam.resources := ["*"] |} ;;;
  (* ECR Repository *)
  repo <- Repository_fromRepositoryName "ApiRepository" "lizdms-api" ;;
  (* Container *)
  container <- addContainer taskDef "ApiContainer"
                 {| ecs.image := repo;
                    ecs.logging :=
                      {| ecs.streamPrefix := "lizdms";
                         ecs.logRetention := logs.ONE_WEEK |};
                    ecs.environment :=
                      [ ("DOCS_BUCKET", bucketName docsBucket);
                        ("OUTPUTS_BUCKET", bucketName outputsBucket);
                        ("QUEUE_URL", queueUrl queue);
                        ("AWS_REGION", this_region) ] |} ;;
  addPortMappings container {| ecs.containerPort := 3000 |} ;;;
  (* ECS Service *)
  service <- new_FargateService "Service"
               {| ecs.cluster := cluster;
                  ecs.taskDefinition := taskDef;
                  ecs.desiredCount := 1;
                  ecs.assignPublicIp := false |} ;;
  (* Application Load Balancer *)
  alb <- new_ApplicationLoadBalancer "ALB"
           {| elbv2.vpc := vpc; elbv2.internetFacing := true |} ;;
  (* ACM Certificate (us-east-2) *)
  certificate <- Certificate_fromCertificateArn "AlbCertificate"
    "arn:aws:acm:us-east-2:502826260777:certificate/38022fb5-d579-401b-8b62-90c47bb6c2af" ;;
  (* HTTPS Listener (443) *)
  httpsListener <- addListener alb "HttpsListener"
                     {| elbv2.BaseApplicationListenerProps.port := 443;
                        elbv2.BaseApplicationListenerProps.certificates :=
                          [certificate];
                        elbv2.BaseApplicationListenerProps.open := true;
                        elbv2.BaseApplicationListenerProps.defaultAction :=
                          None |} ;;
  addTargets httpsListener "EcsTargets"
    {| elbv2.AddApplicationTargetsProps.port := 80;
       elbv2.AddApplicationTargetsProps.targets := [service];
       elbv2.AddApplicationTargetsProps.healthCheck :=
         {| elbv2.path := "/"; elbv2.healthyHttpCodes := "200" |} |} ;;;
  (* HTTP -> HTTPS Redirect *)
  _ <- addListener alb "HttpRedirect"
         {| elbv2.BaseApplicationListenerProps.port := 80;
            elbv2.BaseApplicationListenerProps.certificates := [];
            elbv2.BaseApplicationListenerProps.open := true;
            elbv2.BaseApplicationListenerProps.defaultAction :=
              Some (elbv2.redirect
                      {| elbv2.RedirectOptions.protocol := "HTTPS";
                         elbv2.RedirectOptions.port := "443";
                         elbv2.RedirectOptions.permanent := true |}) |} ;;
  (* Outputs *)
  _ <- new_CfnOutput "AlbDnsName" {| cdk.value := loadBalancerDnsName alb |} ;;
  _ <- new_CfnOutput "VpcCidr" {| cdk.value := vpcCidrBlock vpc |} ;;
  v <- readVpc vpc ;;
  _ <- new_CfnOutput "PublicSubnets"
         {| cdk.value :=
              cdk.Join "," (map ec2.subnetId (ec2.publicSubnets v)) |} ;;
  _ <- new_CfnOutput "PrivateSubnets"
         {| cdk.value :=
              cdk.Join "," (map ec2.subnetId (ec2.privateSubnets v)) |} ;;
  ret tt.

(** The stack [new StagingStack(scope, id, props)] declares: the stack
    starts without children and the body fills it; an exception of the body
    leaves no stack. *)
Definition StagingStack (scope : Scope) (id : string)
  (props : option StagingStackProps) : Result Stack :=
  let this_region := stackRegion scope props in
  match constructor scope this_region props [] with
  | Ok (_, cs) =>
      Ok {| stackId := id;
            account := stackAccount scope props;
            region := this_region;
            children := cs |}
  | Err e => Err e
  end.

(* ===================================================================== *)
(** ** [infra/bin/app.ts] *)
(* ===================================================================== *)

(** The app creates the one stack, in us-east-2, with no option set;
    the account comes from the process environment and may be absent. *)
Definition app (scope : Scope) (CDK_DEFAULT_ACCOUNT : option string)
  : Result Stack :=
  StagingStack scope "LizDmsStagingStack"
    (Some {| env := Some {| cdk.account := CDK_DEFAULT_ACCOUNT;
                            cdk.region := Some "us-east-2" |};
             vpcCidr := None;
             publicSubnetMask := None;
             privateSubnetMask := None;
             maxAzs := None |}).

(* ===================================================================== *)
(** ** Reading a constructed stack *)
(* ===================================================================== *)

Section Observations.

Variable s : Stack.

Definition child (id : Ref) : option Construct := lookup id (children s).

Definition vpcs : list (Ref * ec2.Vpc) :=
  flat_map (fun ic : Ref * Construct =>
              match snd ic with
              | Vpc v => [(fst ic, v)]
              | _ => []
              end) (children s).

Definition buckets : list (Ref * s3.BucketProps) :=
  flat_map (fun ic : Ref * Construct =>
              match snd ic with
              | Bucket b => [(fst ic, b)]
              | _ => []
              end) (children s).

Definition queues : list (Ref * sqs.QueueProps) :=
  flat_map (fun ic : Ref * Construct =>
              match snd ic with
              | Queue q => [(fst ic, q)]
              | _ => []
              end) (children s).

Definition taskDefinitions : list (Ref * ecs.FargateTaskDefinition) :=
  flat_map (fun ic : Ref * Construct =>
              match snd ic with
              | FargateTaskDefinition t => [(fst ic, t)]
              | _ => []
              end) (children s).

Definition services : list (Ref * ecs.FargateServiceProps) :=
  flat_map (fun ic : Ref * Construct =>
              match snd ic with
              | FargateService svc => [(fst ic, ecs.serviceProps svc)]
              | _ => []
              end) (children s).

(** The target groups a service is registered in. *)
Definition registrations (service : Ref) : list ecs.LoadBalancer.t :=
  match child service with
  | Some (FargateService svc) => ecs.loadBalancers svc
  | _ => []
  end.

(** The subnets a service or a load balancer is placed in. *)
Definition placement (r : Ref) : list string :=
  match child r with
  | Some (FargateService svc) => ecs.subnets svc
  | Some (ApplicationLoadBalancer a) => elbv2.subnets a
  | _ => []
  end.

Definition loadBalancers : list (Ref * elbv2.ApplicationLoadBalancer) :=
  flat_map (fun ic : Ref * Construct =>
              match snd ic with
              | ApplicationLoadBalancer a => [(fst ic, a)]
              | _ => []
              end) (children s).

(** Every listener of every load balancer of the stack. *)
Definition listeners : list elbv2.ApplicationListener :=
  flat_map (fun ia => elbv2.listeners (snd ia)) loadBalancers.

Definition listenersOnPort (p : Z) : list elbv2.ApplicationListener :=
  filter (fun l => Z.eqb (elbv2.BaseApplicationListenerProps.port
                            (elbv2.listenerProps l)) p) listeners.

(** The queue a queue hands its undeliverable messages to, if any. *)
Definition deadLetterTarget (q : Ref) : option Ref :=
  match child q with
  | Some (Queue p) => option_map sqs.queue (sqs.deadLetterQueue p)
  | _ => None
  end.

(** The queues a message can be moved through, starting after [q], by
    following dead-letter bindings at most [fuel] times. *)
Fixpoint redeliveryChain (fuel : nat) (q : Ref) : list Ref :=
  match fuel with
  | O => []
  | S fuel' =>
      match deadLetterTarget q with
      | Some d => d :: redeliveryChain fuel' d
      | None => []
      end
  end.

(** The ports the containers of a service's task definition expose. *)
Definition exposedPorts (service : Ref) : list Z :=
  match child service with
  | Some (FargateService svc) =>
      match child (ecs.taskDefinition (ecs.serviceProps svc)) with
      | Some (FargateTaskDefinition t) =>
          map ecs.containerPort
              (flat_map ecs.portMappings (ecs.containers t))
      | _ => []
      end
  | _ => []
  end.

(** The statements of the task-role policies of the stack. *)
Definition taskRoleStatements : list iam.PolicyStatement :=
  flat_map (fun it => ecs.taskRolePolicy (snd it)) taskDefinitions.

Definition grantedActions : list string :=
  flat_map iam.actions taskRoleStatements.

End Observations.

(** The parameters of the resources outside the network. *)
Record ResourceParameters := {
  bucketNames : list string;
  queueNames : list string;
  redeliveryThresholds : list Z;
  taskCpu : list Z;
  taskMemoryMiB : list Z;
  containerPorts : list Z;
  replicaCounts : list Z
}.

Definition resourceParameters (s : Stack) : ResourceParameters :=
  {| bucketNames := map (fun ib => s3.bucketName (snd ib)) (buckets s);
     queueNames := map (fun iq => sqs.queueName (snd iq)) (queues s);
     redeliveryThresholds :=
       flat_map (fun iq =>
                   match sqs.deadLetterQueue (snd iq) with
                   | Some d => [sqs.maxReceiveCount d]
                   | None => []
                   end) (queues s);
     taskCpu := map (fun it => ecs.cpu (ecs.taskProps (snd it)))
                    (taskDefinitions s);
     taskMemoryMiB :=
       map (fun it => ecs.memoryLimitMiB (ecs.taskProps (snd it)))
           (taskDefinitions s);
     containerPorts :=
       map ecs.containerPort
           (flat_map ecs.portMappings
              (flat_map (fun it => ecs.containers (snd it))
                        (taskDefinitions s)));
     replicaCounts := map (fun ip => ecs.desiredCount (snd ip)) (services s) |}.

(** No option of the four is set. *)
Definition omitsAllOptions (props : option StagingStackProps) : bool :=
  match props with
  | None => true
  | Some p =>
      match vpcCidr p, publicSubnetMask p, privateSubnetMask p, maxAzs p with
      | None, None, None, None => true
      | _, _, _, _ => false
      end
  end.

(** The three zones of us-east-2, the region the app deploys to. *)
Definition us_east_2 : Scope :=
  {| availabilityZones := ["us-east-2a"; "us-east-2b"; "us-east-2c"];
     stageAccount := None;
     stageRegion := None |}.

(** The number of zones a network spans when [configured] is passed as
    [maxAzs] and the environment offers [offered] zones: the configured
    maximum, capped by what is offered (a negative maximum drops zones from
    the end instead). *)
Definition zonesSpanned (configured : Z) (offered : nat) : Z :=
  if (configured <? 0)%Z
  then Z.max (Z.of_nat offered + configured) 0
  else Z.min configured (Z.of_nat offered).


(* ===================================================================== *)
(** ** References between the constructs of a stack *)
(* ===================================================================== *)

Inductive Kind :=
| KVpc | KBucket | KQueue | KCluster | KTaskDefinition | KRepository
| KService | KLoadBalancer | KCertificate | KOutput | KProvider.

Definition kindOf (c : Construct) : Kind :=
  match c with
  | Vpc _ => KVpc
  | Bucket _ => KBucket
  | Queue _ => KQueue
  | Cluster _ => KCluster
  | FargateTaskDefinition _ => KTaskDefinition
  | Repository _ => KRepository
  | FargateService _ => KService
  | ApplicationLoadBalancer _ => KLoadBalancer
  | Certificate _ => KCertificate
  | CfnOutput _ => KOutput
  | CustomResourceProvider _ => KProvider
  end.

Definition Kind_eqb (a b : Kind) : bool :=
  match a, b with
  | KVpc, KVpc | KBucket, KBucket | KQueue, KQueue | KCluster, KCluster
  | KTaskDefinition, KTaskDefinition | KRepository, KRepository
  | KService, KService | KLoadBalancer, KLoadBalancer
  | KCertificate, KCertificate | KOutput, KOutput
  | KProvider, KProvider => true
  | _, _ => false
  end.

(** The kind of construct an attribute is read from. *)
Definition attributeOwner (attribute : string) : option Kind :=
  if String.eqb attribute "bucketName" then Some KBucket
  else if String.eqb attribute "queueUrl" then Some KQueue
  else if String.eqb attribute "loadBalancerDnsName" then Some KLoadBalancer
  else if String.eqb attribute "vpcCidrBlock" then Some KVpc
  else None.

(** A reference held by a construct: the construct referred to and the kind
    it has to be of ([None]: an attribute no construct of the stack has). *)
Definition Reference := (Ref * option Kind)%type.

Definition valueReferences (v : cdk.Value) : list Reference :=
  match v with
  | cdk.Attr c a => [(c, attributeOwner a)]
  | _ => []
  end.

(** Every reference a construct holds to another construct of the stack. *)
Definition references (c : Construct) : list Reference :=
  match c with
  | Queue p =>
      match sqs.deadLetterQueue p with
      | Some d => [(sqs.queue d, Some KQueue)]
      | None => []
      end
  | Cluster p => [(ecs.vpc p, Some KVpc)]
  | FargateTaskDefinition t =>
      flat_map (fun c =>
                  (ecs.image (ecs.options c), Some KRepository)
                  :: flat_map (fun kv => valueReferences (snd kv))
                              (ecs.environment (ecs.options c)))
               (ecs.containers t)
  | FargateService svc =>
      [(ecs.cluster (ecs.serviceProps svc), Some KCluster);
       (ecs.taskDefinition (ecs.serviceProps svc), Some KTaskDefinition)]
  | ApplicationLoadBalancer a =>
      (elbv2.vpc (elbv2.albProps a), Some KVpc)
      :: flat_map
           (fun l =>
              map (fun c => (c, Some KCertificate))
                  (elbv2.BaseApplicationListenerProps.certificates
                     (elbv2.listenerProps l))
              ++ flat_map
                   (fun tg =>
                      map (fun t => (t, Some KService))
                          (elbv2.AddApplicationTargetsProps.targets (snd tg)))
                   (elbv2.targetGroups l))
           (elbv2.listeners a)
  | CfnOutput p => valueReferences (cdk.value p)
  | _ => []
  end.

(** The reference leads to a construct of the stack, of the right kind. *)
Definition resolves (cs : Children) (r : Reference) : bool :=
  match lookup (fst r) cs, snd r with
  | Some c, Some k => Kind_eqb (kindOf c) k
  | _, _ => false
  end.

Definition wellReferenced (s : Stack) : bool :=
  forallb (fun ic : Ref * Construct =>
             forallb (resolves (children s)) (references (snd ic)))
          (children s).

Definition clusters (s : Stack) : list (Ref * ecs.ClusterProps) :=
  flat_map (fun ic : Ref * Construct =>
              match snd ic with
              | Cluster p => [(fst ic, p)]
              | _ => []
              end) (children s).

Definition certificates (s : Stack) : list (Ref * string) :=
  flat_map (fun ic : Ref * Construct =>
              match snd ic with
              | Certificate arn => [(fst ic, arn)]
              | _ => []
              end) (children s).

Definition outputs (s : Stack) : list (Ref * cdk.Value) :=
  flat_map (fun ic : Ref * Construct =>
              match snd ic with
              | CfnOutput p => [(fst ic, cdk.value p)]
              | _ => []
              end) (children s).

(** The environment variables of the containers of the stack. *)
Definition containerEnvironment (s : Stack) : list (string * cdk.Value) :=
  flat_map (fun c => ecs.environment (ecs.options c))
           (flat_map (fun it => ecs.containers (snd it)) (taskDefinitions s)).

(** The name of the bucket a value is the [bucketName] attribute of. *)
Definition bucketNamed (s : Stack) (v : cdk.Value) : option string :=
  match v with
  | cdk.Attr b a =>
      if String.eqb a "bucketName"
      then match child s b with
           | Some (Bucket p) => Some (s3.bucketName p)
           | _ => None
           end
      else None
  | _ => None
  end.

(** The fields of a string between the occurrences of a separator. *)
Fixpoint splitOn (sep : ascii) (s : string) : list string :=
  match s with
  | EmptyString => [EmptyString]
  | String c rest =>
      if Ascii.eqb c sep
      then EmptyString :: splitOn sep rest
      else match splitOn sep rest with
           | [] => [String c EmptyString]
           | w :: ws => String c w :: ws
           end
  end.

(** The region field of an ARN, [arn:partition:service:region:account:...]. *)
Definition arnRegion (arn : string) : option string :=
  nth_error (splitOn ":" arn) 3.

(** The options read back from the network of a stack. *)
Definition optionsOf (s : Stack) : option (string * Z * Z * Z) :=
  match vpcs s with
  | [(_, v)] =>
      match ec2.subnetConfiguration (ec2.props v) with
      | [pub; priv] =>
          Some (ec2.cidr (ec2.props v), ec2.cidrMask pub, ec2.cidrMask priv,
                ec2.maxAzs (ec2.props v))
      | _ => None
      end
  | _ => None
  end.

(* ===================================================================== *)
(** ** The checks the library makes while the constructor runs *)
(* ===================================================================== *)

Definition isDigit (c : ascii) : bool :=
  (48 <=? nat_of_ascii c)%nat && (nat_of_ascii c <=? 57)%nat.

Definition isLetter (c : ascii) : bool :=
  ((65 <=? nat_of_ascii c)%nat && (nat_of_ascii c <=? 90)%nat)
  || ((97 <=? nat_of_ascii c)%nat && (nat_of_ascii c <=? 122)%nat).

Fixpoint readDigits (s : string) (acc : Z) : Z :=
  match s with
  | String c rest =>
      if isDigit c
      then readDigits rest (10 * acc + Z.of_nat (nat_of_ascii c - 48))
      else acc
  | EmptyString => acc
  end.

(** [parseInt(s, 10)] for a string that starts with a digit: the number its
    leading digits spell.  Any other string is taken as not a number. *)
Definition parseInt (s : string) : option Z :=
  match s with
  | String c _ => if isDigit c then Some (readDigits s 0) else None
  | EmptyString => None
  end.

(** [NetworkUtils.ipToNum]: four octets between 0 and 255. *)
Definition ipToNum (ip : string) : option Z :=
  match map parseInt (splitOn "." ip) with
  | [Some a; Some b; Some c; Some d] =>
      if (a <=? 255)%Z && (b <=? 255)%Z && (c <=? 255)%Z && (d <=? 255)%Z
      then Some (a * 256 ^ 3 + b * 256 ^ 2 + c * 256 + d)%Z
      else None
  | _ => None
  end.

(** [CidrBlock.calculateNetsize] *)
Definition netsize (mask : Z) : Z := (2 ^ (32 - mask))%Z.

(** The first address of the block of size [2 ^ (32 - mask)] that an
    address is put in: the address itself when it is a multiple of the
    size, the next multiple otherwise. *)
Definition minAddress (address mask : Z) : Z :=
  let networkAddress := (address + netsize mask - 1)%Z in
  (networkAddress - networkAddress mod netsize mask)%Z.

(** [new CidrBlock(cidr)] for a string: the first and the last address of
    the block, if the string is an address and a mask of at most 32 bits
    that give a block within the 32-bit addresses. *)
Definition parseCidr (cidr : string) : option (Z * Z) :=
  match splitOn "/" cidr with
  | ip :: mask :: _ =>
      match ipToNum ip, parseInt mask with
      | Some address, Some m =>
          if (m <=? 32)%Z && (minAddress address m <? 2 ^ 32)%Z
          then Some (minAddress address m,
                     (minAddress address m + netsize m - 1)%Z)
          else None
      | _, _ => None
      end
  | _ => None
  end.

(** [NetworkBuilder.addSubnet], once per subnet and in their order: a mask
    has to lie between 16 and 28, and the subnet has to fit in what is left
    of the block of the network. *)
Fixpoint addSubnets (networkMax next : Z) (masks : list Z) : Result unit :=
  match masks with
  | [] => Ok tt
  | m :: rest =>
      if (m <? 16)%Z || (28 <? m)%Z
      then Err "The subnet mask is not a valid VPC CIDR range (e.g. /16 - /28)"
      else if (networkMax <? next + netsize m - 1)%Z
      then Err "The subnet exceeds the remaining space of the network"
      else addSubnets networkMax (minAddress next m + netsize m)%Z rest
  end.

(** The masks of the subnets of a network in the order they are carved
    out: group by group, and zone by zone within a group. *)
Definition requestedMasks (v : ec2.Vpc) : list Z :=
  flat_map (fun g => repeat (ec2.cidrMask g)
                            (length (ec2.availabilityZones v)))
           (ec2.subnetConfiguration (ec2.props v)).

(** What [new ec2.Vpc] checks: the address block is well formed, the
    subnets fit in it, and a network with NAT gateways has a public subnet
    to put them in. *)
Definition checkVpc (v : ec2.Vpc) : Result unit :=
  match parseCidr (ec2.cidr (ec2.props v)) with
  | None => Err "The address block of the network is not valid"
  | Some (first, last) =>
      match addSubnets last first (requestedMasks v) with
      | Err e => Err e
      | Ok _ =>
          match ec2.publicSubnets v with
          | [] =>
              if (0 <? ec2.natGateways (ec2.props v))%Z
              then Err "There are no 'Public' subnet groups in this VPC"
              else Ok tt
          | _ :: _ => Ok tt
          end
      end
  end.

Fixpoint checkAll (vs : list ec2.Vpc) : Result unit :=
  match vs with
  | [] => Ok tt
  | v :: rest =>
      match checkVpc v with
      | Ok _ => checkAll rest
      | Err e => Err e
      end
  end.

(** A stack is named by its id, and its name has to match
    [/^[A-Za-z][A-Za-z0-9-]*$/]. *)
Definition validStackName (id : string) : bool :=
  match id with
  | EmptyString => false
  | String c rest =>
      isLetter c
      && forallb (fun d => isLetter d || isDigit d || Ascii.eqb d "-")
                 (list_ascii_of_string rest)
  end.

(** [new StagingStack(scope, id, props)] with the checks of the library:
    the caller gets the stack the constructor declares if its name and its
    network pass them, and the exception otherwise. *)
Definition new_StagingStack (scope : Scope) (id : string)
  (props : option StagingStackProps) : Result Stack :=
  if validStackName id
  then
    match StagingStack scope id props with
    | Ok s =>
        match checkAll (map snd (vpcs s)) with
        | Ok _ => Ok s
        | Err e => Err e
        end
    | Err e => Err e
    end
  else Err "Stack name must match the regular expression /^[A-Za-z][A-Za-z0-9-]*$/".

(** The configuration that sets the address block and nothing else. *)
Definition onlyVpcCidr (cidr : string) : option StagingStackProps :=
  Some {| env := None;
          vpcCidr := Some cidr;
          publicSubnetMask := None;
          privateSubnetMask := None;
          maxAzs := None |}.

(* ===================================================================== *)
(** ** Facts about the library model *)
(* ===================================================================== *)

Section SliceFacts.

Context {A : Type}.

Lemma slice0_length (e : Z) (l : list A) :
  Z.of_nat (length (slice0 e l)) =
  if (e <? 0)%Z
  then Z.max (Z.of_nat (length l) + e) 0
  else Z.min e (Z.of_nat (length l)).
Proof.
  unfold slice0. rewrite length_firstn.
  destruct (Z.ltb_spec e 0); lia.
Qed.


Lemma slice0_enough (e : Z) (l : list A) :
  (0 <= e <= Z.of_nat (length l))%Z ->
  Z.of_nat (length (slice0 e l)) = e.
Proof.
  intros He. rewrite slice0_length.
  destruct (Z.ltb_spec e 0); lia.
Qed.

Lemma slice0_firstn (n : nat) (l : list A) :
  slice0 (Z.of_nat n) l = firstn n l.
Proof.
  unfold slice0.
  destruct (Z.ltb_spec (Z.of_nat n) 0) as [Hneg|_]; [lia|].
  destruct (Nat.le_gt_cases n (length l)) as [Hle|Hgt].
  - now rewrite Z.min_l, Nat2Z.id by lia.
  - rewrite Z.min_r, Nat2Z.id by lia.
    rewrite firstn_all. symmetry. apply firstn_all2. lia.
Qed.

End SliceFacts.

Section SubnetFacts.

Variable zones : list string.

Lemma subnetsOfGroup_length (g : ec2.SubnetConfiguration) :
  length (ec2.subnetsOfGroup zones g) = length zones.
Proof.
  unfold ec2.subnetsOfGroup.
  rewrite length_map, length_combine, length_seq. lia.
Qed.

(** Listed by zone, the subnets of a group are the zones themselves: one
    subnet in each. *)
Lemma subnetsOfGroup_zones (g : ec2.SubnetConfiguration) :
  map ec2.availabilityZone (ec2.subnetsOfGroup zones g) = zones.
Proof.
  unfold ec2.subnetsOfGroup. rewrite map_map. cbn [ec2.availabilityZone].
  generalize 0%nat. induction zones as [|z zs IH]; intros k.
  - reflexivity.
  - cbn. f_equal. apply IH.
Qed.

Lemma subnetsOfGroup_group (g : ec2.SubnetConfiguration) (sub : ec2.Subnet) :
  In sub (ec2.subnetsOfGroup zones g) -> ec2.group sub = g.
Proof.
  unfold ec2.subnetsOfGroup. rewrite in_map_iff.
  intros [iz [<- _]]. reflexivity.
Qed.

Lemma filter_subnetsOfGroup (t : ec2.SubnetType)
  (g : ec2.SubnetConfiguration) :
  filter (ec2.ofType t) (ec2.subnetsOfGroup zones g) =
  if ec2.SubnetType_eqb (ec2.subnetType g) t
  then ec2.subnetsOfGroup zones g
  else [].
Proof.
  unfold ec2.subnetsOfGroup, ec2.ofType.
  destruct (ec2.SubnetType_eqb (ec2.subnetType g) t) eqn:Hg;
    induction (combine (seq 0 (length zones)) zones) as [|iz l IH];
    cbn [map filter ec2.group]; try reflexivity.
  - rewrite Hg. f_equal. exact IH.
  - rewrite Hg. exact IH.
Qed.

(** The subnets of one type are the subnets of the groups of that type. *)
Lemma subnets_of_type (t : ec2.SubnetType)
  (cfg : list ec2.SubnetConfiguration) :
  filter (ec2.ofType t) (flat_map (ec2.subnetsOfGroup zones) cfg) =
  flat_map (ec2.subnetsOfGroup zones)
           (filter (fun g => ec2.SubnetType_eqb (ec2.subnetType g) t) cfg).
Proof.
  induction cfg as [|g cfg IH].
  - reflexivity.
  - cbn [flat_map filter]. rewrite filter_app, IH, filter_subnetsOfGroup.
    now destruct (ec2.SubnetType_eqb (ec2.subnetType g) t).
Qed.

End SubnetFacts.

(** In any network the library builds, the subnets whose default route
    leaves through the NAT gateway are the private subnets and no others. *)
Lemma newVpc_nat_routes (stackZones : list string) (p : ec2.VpcProps)
  (sub : ec2.Subnet) :
  In sub (ec2.allSubnets (ec2.newVpc stackZones p)) ->
  (ec2.routedThroughNat sub = true <->
   In sub (ec2.privateSubnets (ec2.newVpc stackZones p))).
Proof.
  unfold ec2.allSubnets, ec2.routedThroughNat, ec2.newVpc.
  cbn [ec2.publicSubnets ec2.privateSubnets ec2.isolatedSubnets].
  rewrite !in_app_iff, !filter_In. tauto.
Qed.

(** A network declared with one public and one private group has, in every
    zone it spans, one subnet of each. *)
Lemma newVpc_two_tier (stackZones : list string) (p : ec2.VpcProps)
  (pub priv : ec2.SubnetConfiguration) :
  ec2.subnetConfiguration p = [pub; priv] ->
  ec2.subnetType pub = ec2.PUBLIC ->
  ec2.subnetType priv = ec2.PRIVATE_WITH_NAT ->
  let v := ec2.newVpc stackZones p in
  ec2.publicSubnets v = ec2.subnetsOfGroup (ec2.availabilityZones v) pub /\
  ec2.privateSubnets v = ec2.subnetsOfGroup (ec2.availabilityZones v) priv /\
  ec2.isolatedSubnets v = [].
Proof.
  intros Hcfg Hpub Hpriv. unfold ec2.newVpc.
  cbn [ec2.publicSubnets ec2.privateSubnets ec2.isolatedSubnets
       ec2.availabilityZones].
  rewrite !subnets_of_type, Hcfg. cbn [filter].
  rewrite Hpub, Hpriv. cbn. now rewrite !app_nil_r.
Qed.

(** When the environment offers at least as many zones as are configured,
    the network spans exactly the configured number. *)
Corollary zonesSpanned_enough (configured : Z) (offered : nat) :
  (0 <= configured <= Z.of_nat offered)%Z ->
  zonesSpanned configured offered = configured.
Proof.
  intros H. unfold zonesSpanned.
  destruct (Z.ltb_spec configured 0); lia.
Qed.

(** Otherwise it spans fewer. *)
Corollary zonesSpanned_capped (configured : Z) (offered : nat) :
  (Z.of_nat offered < configured)%Z ->
  zonesSpanned configured offered = Z.of_nat offered.
Proof.
  intros H. unfold zonesSpanned.
  destruct (Z.ltb_spec configured 0); lia.
Qed.

(** A public subnet has no route through the NAT gateway. *)
Lemma ofType_public_not_nat (sub : ec2.Subnet) :
  ec2.ofType ec2.PUBLIC sub = true -> ec2.routedThroughNat sub = false.
Proof.
  unfold ec2.routedThroughNat, ec2.ofType.
  now destruct (ec2.subnetType (ec2.group sub)).
Qed.

(** The network built from the fallback values alone, in an environment
    with at least two zones. *)
Lemma newVpc_defaults (stackZones : list string) :
  (2 <= length stackZones)%nat ->
  let v := ec2.newVpc stackZones
             {| ec2.cidr := "10.0.0.0/16";
                ec2.maxAzs := 2;
                ec2.natGateways := 1;
                ec2.subnetConfiguration :=
                  [ {| ec2.name := "Public";
                       ec2.subnetType := ec2.PUBLIC;
                       ec2.cidrMask := 24 |};
                    {| ec2.name := "Private";
                       ec2.subnetType := ec2.PRIVATE_WITH_NAT;
                       ec2.cidrMask := 24 |} ] |} in
  ec2.availabilityZones v = firstn 2 stackZones /\
  length (ec2.availabilityZones v) = 2%nat /\
  map ec2.availabilityZone (ec2.publicSubnets v) = ec2.availabilityZones v /\
  map ec2.availabilityZone (ec2.privateSubnets v) = ec2.availabilityZones v /\
  Forall (fun sub => ec2.cidrMask (ec2.group sub) = 24%Z)
         (ec2.publicSubnets v ++ ec2.privateSubnets v).
Proof.
  intros Hzones.
  match goal with
  | |- let v := ec2.newVpc _ ?p in _ =>
      destruct (newVpc_two_tier stackZones p _ _ eq_refl eq_refl eq_refl)
        as (Hpub & Hpriv & _);
      set (v := ec2.newVpc stackZones p) in *
  end.
  cbv zeta.
  assert (Hspan : ec2.availabilityZones v = firstn 2 stackZones)
    by exact (slice0_firstn 2 stackZones).
  rewrite Hpub, Hpriv, !subnetsOfGroup_zones.
  split; [exact Hspan|].
  split; [rewrite Hspan, length_firstn; lia|].
  split; [reflexivity|]. split; [reflexivity|].
  apply Forall_app; split; apply Forall_forall; intros sub Hin;
    apply subnetsOfGroup_group in Hin; now rewrite Hin.
Qed.

(** Running the constructor: the children are computed, the network itself
    is left as the library call it is. *)
Ltac run_constructor :=
  cbv -[ec2.newVpc ec2.selectDefault nullish optChain stackRegion stackAccount
        availabilityZones stageRegion stageAccount];
  reflexivity.

Ltac constructed :=
  eexists; split; [run_constructor|].

(* ===================================================================== *)
(** ** Facts about the checks *)
(* ===================================================================== *)


Lemma new_StagingStack_intro (scope : Scope) (id : string)
  (props : option StagingStackProps) (s : Stack) (net : Ref) (v : ec2.Vpc) :
  validStackName id = true ->
  StagingStack scope id props = Ok s ->
  vpcs s = [(net, v)] ->
  checkVpc v = Ok tt ->
  new_StagingStack scope id props = Ok s.
Proof.
  intros Hid Hs Hv Hcheck. unfold new_StagingStack.
  rewrite Hid, Hs, Hv. cbn. now rewrite Hcheck.
Qed.


(** The network of the fallback values passes the checks wherever there is
    a zone. *)
Lemma checkVpc_defaults (stackZones : list string) :
  stackZones <> [] ->
  checkVpc (ec2.newVpc stackZones
              {| ec2.cidr := "10.0.0.0/16";
                 ec2.maxAzs := 2;
                 ec2.natGateways := 1;
                 ec2.subnetConfiguration :=
                   [ {| ec2.name := "Public";
                        ec2.subnetType := ec2.PUBLIC;
                        ec2.cidrMask := 24 |};
                     {| ec2.name := "Private";
                        ec2.subnetType := ec2.PRIVATE_WITH_NAT;
                        ec2.cidrMask := 24 |} ] |}) = Ok tt.
Proof.
  intros Hzones. unfold checkVpc, requestedMasks, ec2.newVpc.
  cbn [ec2.props ec2.cidr ec2.maxAzs ec2.natGateways ec2.subnetConfiguration
       ec2.availabilityZones ec2.publicSubnets].
  change 2%Z with (Z.of_nat 2). rewrite slice0_firstn.
  destruct stackZones as [|z1 [|z2 rest]]; [contradiction| |]; reflexivity.
Qed.

(** A binding to a queue the stack does not have is noticed. *)
Example dangling_reference_is_noticed :
  wellReferenced
    {| stackId := "Broken";
       account := cdk.Pseudo "AWS::AccountId";
       region := cdk.Pseudo "AWS::Region";
       children :=
         [("ProcessingQueue",
           Queue {| sqs.queueName := "lizdms-staging-processing";
                    sqs.deadLetterQueue :=
                      Some {| sqs.queue := "ProcessingDLQ";
                              sqs.maxReceiveCount := 3 |} |})] |} = false.
Proof. reflexivity. Qed.

(** What the app exports about the subnets in us-east-2. *)
Example app_subnet_outputs :
  exists s,
    app us_east_2 None = Ok s /\
    child s "PublicSubnets" =
      Some (CfnOutput
              {| cdk.value := cdk.Join "," ["PublicSubnet1"; "PublicSubnet2"] |}) /\
    child s "PrivateSubnets" =
      Some (CfnOutput
              {| cdk.value :=
                   cdk.Join "," ["PrivateSubnet1"; "PrivateSubnet2"] |}).
Proof.
  eexists. split; [run_constructor|]. split; reflexivity.
Qed.

(* ===================================================================== *)
(** ** Claims *)
(* ===================================================================== *)





(** The port written on the forwarding rule itself is 80: it is the port
    of the target group, which a target that registers with a port of its
    own does not use. *)
Remark target_group_port (scope : Scope) (id : string)
  (props : option StagingStackProps) :
  exists s https rule,
    StagingStack scope id props = Ok s /\
    listenersOnPort s 443 = [https] /\
    elbv2.targetGroups https = [("EcsTargets", rule)] /\
    elbv2.AddApplicationTargetsProps.port rule = 80%Z.
Proof.
  do 3 eexists. split; [run_constructor|].
  repeat (split; [reflexivity|]). reflexivity.
Qed.

(** C2.  In every constructed stack the listener on port 443 has one
    forwarding rule; its only target is the service, and the service is
    registered in that rule with its container at port 3000, the port the
    port mapping of the container declares; the rule carries a health
    check given by the path ["/"] and the expected status code ["200"]. *)
Theorem C2_forwarding_rule (scope : Scope) (id : string)
  (props : option StagingStackProps) :
  exists s https rule registration,
    StagingStack scope id props = Ok s /\
    listenersOnPort s 443 = [https] /\
    elbv2.targetGroups https = [("EcsTargets", rule)] /\
    elbv2.AddApplicationTargetsProps.targets rule = ["Service"] /\
    registrations s "Service" = [registration] /\
    ecs.LoadBalancer.targetGroup registration = "EcsTargets" /\
    ecs.LoadBalancer.containerName registration = "ApiContainer" /\
    ecs.LoadBalancer.containerPort registration = 3000%Z /\
    exposedPorts s "Service" = [ecs.LoadBalancer.containerPort registration] /\
    elbv2.AddApplicationTargetsProps.healthCheck rule =
      {| elbv2.path := "/"; elbv2.healthyHttpCodes := "200" |}.
Proof.
  do 4 eexists. split; [run_constructor|].
  repeat (split; [reflexivity|]). reflexivity.
Qed.

(** C3.  When no option is set (and the environment offers at least two
    zones, as every region does), the network has the address block
    10.0.0.0/16 and is declared with at most 2 zones and one public and one
    private group of mask 24; it spans exactly 2 zones, the first two of
    the environment, and has in each of them one public and one private
    subnet, all of mask 24. *)
Theorem C3_default_network (scope : Scope) (id : string)
  (props : option StagingStackProps) :
  omitsAllOptions props = true ->
  (2 <= length (availabilityZones scope))%nat ->
  exists s v,
    StagingStack scope id props = Ok s /\
    vpcs s = [("Vpc", v)] /\
    ec2.cidr (ec2.props v) = "10.0.0.0/16" /\
    ec2.maxAzs (ec2.props v) = 2%Z /\
    ec2.subnetConfiguration (ec2.props v) =
      [ {| ec2.name := "Public";
           ec2.subnetType := ec2.PUBLIC;
           ec2.cidrMask := 24 |};
        {| ec2.name := "Private";
           ec2.subnetType := ec2.PRIVATE_WITH_NAT;
           ec2.cidrMask := 24 |} ] /\
    ec2.availabilityZones v = firstn 2 (availabilityZones scope) /\
    length (ec2.availabilityZones v) = 2%nat /\
    map ec2.availabilityZone (ec2.publicSubnets v) = ec2.availabilityZones v /\
    map ec2.availabilityZone (ec2.privateSubnets v) = ec2.availabilityZones v /\
    Forall (fun sub => ec2.cidrMask (ec2.group sub) = 24%Z)
           (ec2.publicSubnets v ++ ec2.privateSubnets v).
Proof.
  intros Homit Hzones.
  destruct props as [[e [c|] [pm|] [qm|] [m|]]|];
    cbn in Homit; try discriminate Homit;
    (do 2 eexists;
     split; [cbv -[ec2.newVpc availabilityZones]; reflexivity|];
     split; [reflexivity|]; split; [reflexivity|]; split; [reflexivity|];
     split; [reflexivity|];
     exact (newVpc_defaults (availabilityZones scope) Hzones)).
Qed.

(** C3 holds of the stack the app builds in us-east-2. *)
Lemma C3_default_network_witness :
  omitsAllOptions
    (Some {| env := Some {| cdk.account := None;
                            cdk.region := Some "us-east-2" |};
             vpcCidr := None;
             publicSubnetMask := None;
             privateSubnetMask := None;
             maxAzs := None |}) = true /\
  (2 <= length (availabilityZones us_east_2))%nat /\
  exists s v,
    app us_east_2 None = Ok s /\
    vpcs s = [("Vpc", v)] /\
    ec2.cidr (ec2.props v) = "10.0.0.0/16" /\
    ec2.maxAzs (ec2.props v) = 2%Z /\
    ec2.subnetConfiguration (ec2.props v) =
      [ {| ec2.name := "Public";
           ec2.subnetType := ec2.PUBLIC;
           ec2.cidrMask := 24 |};
        {| ec2.name := "Private";
           ec2.subnetType := ec2.PRIVATE_WITH_NAT;
           ec2.cidrMask := 24 |} ] /\
    ec2.availabilityZones v = firstn 2 (availabilityZones us_east_2) /\
    length (ec2.availabilityZones v) = 2%nat /\
    map ec2.availabilityZone (ec2.publicSubnets v) = ec2.availabilityZones v /\
    map ec2.availabilityZone (ec2.privateSubnets v) = ec2.availabilityZones v /\
    Forall (fun sub => ec2.cidrMask (ec2.group sub) = 24%Z)
           (ec2.publicSubnets v ++ ec2.privateSubnets v).
Proof.
  split; [reflexivity|]. split; [cbn; lia|].
  apply (C3_default_network us_east_2 "LizDmsStagingStack"
           (Some {| env := Some {| cdk.account := None;
                                   cdk.region := Some "us-east-2" |};
                    vpcCidr := None;
                    publicSubnetMask := None;
                    privateSubnetMask := None;
                    maxAzs := None |}));
    [reflexivity | cbn; lia].
Defined.

(** C4. In every constructed stack the primary queue ["ProcessingQueue"] is
    bound to one dead-letter queue, the queue ["ProcessingDLQ"] of the same
    stack, with redelivery threshold 3; the threshold of every binding in
    the stack is 3, hence at least 1. *)
Theorem C4_dead_letter_threshold (scope : Scope) (id : string)
  (props : option StagingStackProps) :
  exists s dlq,
    StagingStack scope id props = Ok s /\
    child s "ProcessingQueue" =
      Some (Queue {| sqs.queueName := "lizdms-staging-processing";
                     sqs.deadLetterQueue :=
                       Some {| sqs.queue := "ProcessingDLQ";
                               sqs.maxReceiveCount := 3 |} |}) /\
    child s "ProcessingDLQ" = Some (Queue dlq) /\
    redeliveryThresholds (resourceParameters s) = [3%Z] /\
    Forall (fun n => (1 <= n)%Z) (redeliveryThresholds (resourceParameters s)).
Proof.
  eexists. eexists. split; [run_constructor|].
  split; [reflexivity|]. split; [reflexivity|]. split; [reflexivity|].
  cbn. constructor; [lia|constructor].
Qed.

(** C5. Every constructed stack has exactly two listeners.  One listens on
    port 443 and carries the certificate, which is the imported
    certificate of the stack; the other listens on port 80, carries no
    certificate, has no target group, and its one action is the permanent
    redirect to HTTPS on port 443. *)
Theorem C5_listeners (scope : Scope) (id : string)
  (props : option StagingStackProps) :
  exists s https http arn,
    StagingStack scope id props = Ok s /\
    listeners s = [https; http] /\
    listenersOnPort s 443 = [https] /\
    listenersOnPort s 80 = [http] /\
    elbv2.BaseApplicationListenerProps.certificates
      (elbv2.listenerProps https) = ["AlbCertificate"] /\
    child s "AlbCertificate" = Some (Certificate arn) /\
    elbv2.BaseApplicationListenerProps.certificates
      (elbv2.listenerProps http) = [] /\
    elbv2.targetGroups http = [] /\
    elbv2.BaseApplicationListenerProps.defaultAction
      (elbv2.listenerProps http) =
      Some (elbv2.redirect
              {| elbv2.RedirectOptions.protocol := "HTTPS";
                 elbv2.RedirectOptions.port := "443";
                 elbv2.RedirectOptions.permanent := true |}).
Proof.
  do 4 eexists. split; [run_constructor|].
  repeat (split; [reflexivity|]). reflexivity.
Qed.

(** C6. The policy of the task role consists of one statement; it grants
    the three actions [s3:GetObject], [s3:PutObject] and [sqs:SendMessage]
    on the resources ["*"], and the stack grants the task no other
    action. *)
Theorem C6_task_role_policy (scope : Scope) (id : string)
  (props : option StagingStackProps) :
  exists s,
    StagingStack scope id props = Ok s /\
    taskRoleStatements s =
      [{| iam.actions := ["s3:GetObject"; "s3:PutObject"; "sqs:SendMessage"];
          iam.resources := ["*"] |}] /\
    grantedActions s = ["s3:GetObject"; "s3:PutObject"; "sqs:SendMessage"] /\
    length (grantedActions s) = 3%nat /\
    Forall (fun st => iam.resources st = ["*"]) (taskRoleStatements s).
Proof.
  constructed.
  split; [reflexivity|]. split; [reflexivity|]. split; [reflexivity|].
  repeat constructor.
Qed.

(** C7.  For every configuration, and so for every zone count, the network
    is declared with exactly one NAT gateway.  It has one private subnet
    per zone it spans, every private subnet is routed through the NAT
    gateway, no public subnet is, and there are no other subnets. *)
Theorem C7_one_shared_nat (scope : Scope) (id : string)
  (props : option StagingStackProps) :
  exists s v,
    StagingStack scope id props = Ok s /\
    vpcs s = [("Vpc", v)] /\
    ec2.natGateways (ec2.props v) = 1%Z /\
    length (ec2.privateSubnets v) = length (ec2.availabilityZones v) /\
    Forall (fun sub => ec2.routedThroughNat sub = true)
           (ec2.privateSubnets v) /\
    Forall (fun sub => ec2.routedThroughNat sub = false)
           (ec2.publicSubnets v) /\
    ec2.allSubnets v = ec2.publicSubnets v ++ ec2.privateSubnets v.
Proof.
  do 2 eexists. split; [run_constructor|].
  split; [reflexivity|]. split; [reflexivity|].
  match goal with
  | |- context [ec2.newVpc ?zs ?p] =>
      destruct (newVpc_two_tier zs p _ _ eq_refl eq_refl eq_refl)
        as (Hpub & Hpriv & Hiso);
      set (v := ec2.newVpc zs p) in *
  end.
  split; [rewrite Hpriv; apply subnetsOfGroup_length|].
  split.
  { apply Forall_forall. intros sub Hin.
    apply (newVpc_nat_routes (availabilityZones scope) (ec2.props v)); [|exact Hin].
    unfold ec2.allSubnets. rewrite !in_app_iff. right. left. exact Hin. }
  split.
  { apply Forall_forall. intros sub Hin. apply ofType_public_not_nat.
    unfold v, ec2.newVpc in Hin. cbn [ec2.publicSubnets] in Hin.
    apply filter_In in Hin. tauto. }
  unfold ec2.allSubnets. now rewrite Hiso, app_nil_r.
Qed.

(** C8, as stated, fails where a default does not go with a value that is
    given: with the address block 10.0.0.0/24 and the masks omitted, the
    default /24 subnets do not fit the block, and the constructor throws
    (under a valid name, in a region with zones). *)
Lemma C8_default_masks_overflow_the_block :
  validStackName "LizDmsStagingStack" = true /\
  availabilityZones us_east_2 <> [] /\
  omitsAllOptions (onlyVpcCidr "10.0.0.0/24") = false /\
  exists message,
    new_StagingStack us_east_2 "LizDmsStagingStack"
                     (onlyVpcCidr "10.0.0.0/24") = Err message.
Proof.
  split; [reflexivity|]. split; [discriminate|]. split; [reflexivity|].
  eexists. vm_compute. reflexivity.
Qed.

(** C8, amended.  An omitted option is the same as its default written
    out: whichever options are omitted, the constructor gives what it gives
    when each of them is set to 10.0.0.0/16, 24, 24 and 2 respectively, the
    same stack or the same failure.  When all four are omitted, under a
    valid stack name and in an environment with a zone, it gives a stack,
    whose network has the address block 10.0.0.0/16, at most 2 zones and
    the masks 24 and 24. *)
Theorem C8_omitted_options_take_defaults (scope : Scope) (id : string)
  (e : option cdk.Environment) (c : option string) (pm qm m : option Z) :
  new_StagingStack scope id
    (Some {| env := e;
             vpcCidr := c;
             publicSubnetMask := pm;
             privateSubnetMask := qm;
             maxAzs := m |}) =
  new_StagingStack scope id
    (Some {| env := e;
             vpcCidr :=
               Some (match c with Some x => x | None => "10.0.0.0/16" end);
             publicSubnetMask :=
               Some (match pm with Some x => x | None => 24%Z end);
             privateSubnetMask :=
               Some (match qm with Some x => x | None => 24%Z end);
             maxAzs := Some (match m with Some x => x | None => 2%Z end) |}) /\
  new_StagingStack scope id None =
  new_StagingStack scope id
    (Some {| env := None;
             vpcCidr := Some "10.0.0.0/16";
             publicSubnetMask := Some 24%Z;
             privateSubnetMask := Some 24%Z;
             maxAzs := Some 2%Z |}) /\
  (validStackName id = true ->
   availabilityZones scope <> [] ->
   exists s s' v,
     new_StagingStack scope id None = Ok s /\
     new_StagingStack scope id
       (Some {| env := e;
                vpcCidr := None;
                publicSubnetMask := None;
                privateSubnetMask := None;
                maxAzs := None |}) = Ok s' /\
     vpcs s = [("Vpc", v)] /\
     vpcs s' = [("Vpc", v)] /\
     ec2.cidr (ec2.props v) = "10.0.0.0/16" /\
     ec2.maxAzs (ec2.props v) = 2%Z /\
     map ec2.cidrMask (ec2.subnetConfiguration (ec2.props v)) = [24%Z; 24%Z]).
Proof.
  split; [destruct c, pm, qm, m; reflexivity|].
  split; [reflexivity|].
  intros Hid Hzones.
  do 3 eexists.
  split.
  { eapply new_StagingStack_intro;
      [exact Hid | run_constructor | reflexivity
      | exact (checkVpc_defaults _ Hzones)]. }
  split.
  { eapply new_StagingStack_intro;
      [exact Hid | run_constructor | reflexivity
      | exact (checkVpc_defaults _ Hzones)]. }
  repeat (split; [reflexivity|]). reflexivity.
Qed.

(** C8 where the app runs: with every option omitted the constructor gives
    a stack with the default network. *)
Lemma C8_omitted_options_take_defaults_witness :
  validStackName "LizDmsStagingStack" = true /\
  availabilityZones us_east_2 <> [] /\
  exists s s' v,
    new_StagingStack us_east_2 "LizDmsStagingStack" None = Ok s /\
    new_StagingStack us_east_2 "LizDmsStagingStack"
      (Some {| env := Some {| cdk.account := None;
                              cdk.region := Some "us-east-2" |};
               vpcCidr := None;
               publicSubnetMask := None;
               privateSubnetMask := None;
               maxAzs := None |}) = Ok s' /\
    vpcs s = [("Vpc", v)] /\
    vpcs s' = [("Vpc", v)] /\
    ec2.cidr (ec2.props v) = "10.0.0.0/16" /\
    ec2.maxAzs (ec2.props v) = 2%Z /\
    map ec2.cidrMask (ec2.subnetConfiguration (ec2.props v)) = [24%Z; 24%Z].
Proof.
  split; [reflexivity|]. split; [discriminate|].
  apply (C8_omitted_options_take_defaults
           us_east_2 "LizDmsStagingStack"
           (Some {| cdk.account := None; cdk.region := Some "us-east-2" |})
           None None None None);
    [reflexivity | discriminate].
Defined.

(** C9. Whatever the two configurations (and scopes and ids) are, the two
    stacks have the same parameters outside the network: the bucket names,
    the queue names, the redelivery threshold 3, the task's 256 CPU units
    and 512 MiB, the container port 3000 and the replica count 1. *)
Theorem C9_parameters_independent_of_configuration
  (scope1 scope2 : Scope) (id1 id2 : string)
  (props1 props2 : option StagingStackProps) :
  exists s1 s2,
    StagingStack scope1 id1 props1 = Ok s1 /\
    StagingStack scope2 id2 props2 = Ok s2 /\
    resourceParameters s1 = resourceParameters s2 /\
    resourceParameters s1 =
      {| bucketNames := ["lizdms-staging-docs"; "lizdms-staging-outputs"];
         queueNames := ["lizdms-staging-processing-dlq";
                        "lizdms-staging-processing"];
         redeliveryThresholds := [3%Z];
         taskCpu := [256%Z];
         taskMemoryMiB := [512%Z];
         containerPorts := [3000%Z];
         replicaCounts := [1%Z] |}.
Proof.
  do 2 eexists.
  split; [run_constructor|]. split; [run_constructor|].
  split; reflexivity.
Qed.

(** C10. Every constructed stack has exactly two queues, the dead-letter
    queue and the primary queue; the dead-letter queue has no dead-letter
    binding of its own, so following the bindings from the primary queue
    reaches the dead-letter queue and stops there, however far one is
    prepared to follow. *)
Theorem C10_redelivery_depth_one (scope : Scope) (id : string)
  (props : option StagingStackProps) :
  exists s dlq q,
    StagingStack scope id props = Ok s /\
    queues s = [("ProcessingDLQ", dlq); ("ProcessingQueue", q)] /\
    length (queues s) = 2%nat /\
    sqs.deadLetterQueue dlq = None /\
    deadLetterTarget s "ProcessingQueue" = Some "ProcessingDLQ" /\
    deadLetterTarget s "ProcessingDLQ" = None /\
    forall fuel,
      redeliveryChain s (S fuel) "ProcessingQueue" = ["ProcessingDLQ"].
Proof.
  do 3 eexists. split; [run_constructor|].
  split; [reflexivity|]. split; [reflexivity|]. split; [reflexivity|].
  split; [reflexivity|]. split; [reflexivity|].
  intros [|fuel]; reflexivity.
Qed.

(* ===================================================================== *)
(** ** Further properties of the constructor and of the app *)
(* ===================================================================== *)

(** X1. No reference of a constructed stack dangles: the dead-letter
    binding, the network of the cluster and of the load balancer, the
    cluster and task definition of the service, the image of the container,
    the attributes in its environment, the certificate and the targets of
    the listeners, and the attributes in the outputs each lead to a
    construct of the same stack, of the kind the reference needs. *)
Theorem X1_references_resolve (scope : Scope) (id : string)
  (props : option StagingStackProps) :
  exists s,
    StagingStack scope id props = Ok s /\
    wellReferenced s = true.
Proof.
  eexists. split; [run_constructor|].
  cbv -[ec2.newVpc ec2.selectDefault nullish optChain availabilityZones
        stageRegion stageAccount stackAccount].
  destruct (optChain (optChain props _) _), (stageRegion scope); reflexivity.
Qed.

(** X2. The service and the load balancer meet in one network: the cluster
    the service runs in and the load balancer are both placed in the
    network the stack creates; the service is given no public address and
    the load balancer is the internet-facing one. *)
Theorem X2_service_and_load_balancer_share_the_network
  (scope : Scope) (id : string) (props : option StagingStackProps) :
  exists s net v svc cl lb,
    StagingStack scope id props = Ok s /\
    vpcs s = [(net, v)] /\
    services s = [("Service", svc)] /\
    child s (ecs.cluster svc) = Some (Cluster cl) /\
    ecs.vpc cl = net /\
    loadBalancers s = [("ALB", lb)] /\
    elbv2.vpc (elbv2.albProps lb) = net /\
    ecs.assignPublicIp svc = false /\
    elbv2.internetFacing (elbv2.albProps lb) = true.
Proof.
  do 6 eexists. split; [run_constructor|].
  repeat (split; [reflexivity|]). reflexivity.
Qed.

(** X3. The container is told where its resources are: its four environment
    variables have distinct names; [DOCS_BUCKET] is the name of the bucket
    lizdms-staging-docs and [OUTPUTS_BUCKET] that of lizdms-staging-outputs;
    [QUEUE_URL] is the address of the queue that has the dead-letter
    binding, not of the dead-letter queue; and [AWS_REGION] is the region of
    the stack. *)
Theorem X3_container_environment (scope : Scope) (id : string)
  (props : option StagingStackProps) :
  exists s docs outs q dlq,
    StagingStack scope id props = Ok s /\
    NoDup (map fst (containerEnvironment s)) /\
    length (containerEnvironment s) = 4%nat /\
    lookup "DOCS_BUCKET" (containerEnvironment s) = Some docs /\
    bucketNamed s docs = Some "lizdms-staging-docs" /\
    lookup "OUTPUTS_BUCKET" (containerEnvironment s) = Some outs /\
    bucketNamed s outs = Some "lizdms-staging-outputs" /\
    lookup "QUEUE_URL" (containerEnvironment s) = Some (queueUrl q) /\
    deadLetterTarget s q = Some dlq /\
    lookup "AWS_REGION" (containerEnvironment s) = Some (region s).
Proof.
  do 5 eexists. split; [run_constructor|].
  split.
  { cbn. repeat constructor; cbn; intuition discriminate. }
  repeat (split; [reflexivity|]). reflexivity.
Qed.

(** X5. The app deploys to the region of the certificate: whatever the
    scope and the account of the process environment are, its stack is
    named LizDmsStagingStack and is in us-east-2, the region of the
    certificate of its listener; it hands that region to the container, its
    account is the one of the process environment when there is one, and
    its network is declared with the default options. *)
Theorem X5_app_region (scope : Scope) (CDK_DEFAULT_ACCOUNT : option string) :
  exists s arn,
    app scope CDK_DEFAULT_ACCOUNT = Ok s /\
    stackId s = "LizDmsStagingStack" /\
    region s = cdk.Literal "us-east-2" /\
    certificates s = [("AlbCertificate", arn)] /\
    option_map cdk.Literal (arnRegion arn) = Some (region s) /\
    lookup "AWS_REGION" (containerEnvironment s) =
      Some (cdk.Literal "us-east-2") /\
    (forall a, CDK_DEFAULT_ACCOUNT = Some a -> account s = cdk.Literal a) /\
    optionsOf s = Some ("10.0.0.0/16", 24%Z, 24%Z, 2%Z).
Proof.
  do 2 eexists. split; [run_constructor|].
  repeat (split; [reflexivity|]).
  split; [|reflexivity].
  intros a ->. reflexivity.
Qed.

(** X6. For every configuration the subnets come in pairs per zone: listed
    by zone, the public subnets and the private subnets each give the zones
    the network spans, in the same order; every public subnet belongs to
    the group Public and has the public mask as resolved, every private
    subnet belongs to the group Private and has the private mask as
    resolved. *)
Theorem X6_subnets_pair_up_per_zone (scope : Scope) (id : string)
  (props : option StagingStackProps) :
  exists s v,
    StagingStack scope id props = Ok s /\
    vpcs s = [("Vpc", v)] /\
    map ec2.availabilityZone (ec2.publicSubnets v) = ec2.availabilityZones v /\
    map ec2.availabilityZone (ec2.privateSubnets v) = ec2.availabilityZones v /\
    Forall (fun sub =>
              ec2.group sub =
                {| ec2.name := "Public";
                   ec2.subnetType := ec2.PUBLIC;
                   ec2.cidrMask :=
                     nullish (optChain props publicSubnetMask) 24%Z |})
           (ec2.publicSubnets v) /\
    Forall (fun sub =>
              ec2.group sub =
                {| ec2.name := "Private";
                   ec2.subnetType := ec2.PRIVATE_WITH_NAT;
                   ec2.cidrMask :=
                     nullish (optChain props privateSubnetMask) 24%Z |})
           (ec2.privateSubnets v).
Proof.
  do 2 eexists. split; [run_constructor|].
  split; [reflexivity|].
  match goal with
  | |- context [ec2.newVpc ?zs ?p] =>
      destruct (newVpc_two_tier zs p _ _ eq_refl eq_refl eq_refl)
        as (Hpub & Hpriv & _)
  end.
  rewrite Hpub, Hpriv, !subnetsOfGroup_zones.
  split; [reflexivity|]. split; [reflexivity|].
  split; apply Forall_forall; intros sub Hin;
    apply subnetsOfGroup_group in Hin; exact Hin.
Qed.

(** X9. Every constructed stack has the same sixteen children, in the
    order of their creation and of these kinds: the fifteen constructs the
    constructor names and, after the first bucket, the provider that
    empties the buckets, which the two buckets share.  Their ids are
    pairwise distinct, and so are the ids of the two listeners of the load
    balancer. *)
Theorem X9_children_of_the_stack (scope : Scope) (id : string)
  (props : option StagingStackProps) :
  exists s,
    StagingStack scope id props = Ok s /\
    map (fun ic => (fst ic, kindOf (snd ic))) (children s) =
      [ ("Vpc", KVpc); ("DocsBucket", KBucket);
        ("Custom::S3AutoDeleteObjectsCustomResourceProvider", KProvider);
        ("OutputsBucket", KBucket);
        ("ProcessingDLQ", KQueue); ("ProcessingQueue", KQueue);
        ("Cluster", KCluster); ("TaskDef", KTaskDefinition);
        ("ApiRepository", KRepository); ("Service", KService);
        ("ALB", KLoadBalancer); ("AlbCertificate", KCertificate);
        ("AlbDnsName", KOutput); ("VpcCidr", KOutput);
        ("PublicSubnets", KOutput); ("PrivateSubnets", KOutput) ] /\
    NoDup (map fst (children s)) /\
    NoDup (map elbv2.listenerId (listeners s)) /\
    Forall (fun ic => child s (fst ic) = Some (snd ic)) (children s).
Proof.
  eexists. split; [run_constructor|].
  split; [reflexivity|].
  split; [cbn; repeat constructor; cbn; intuition discriminate|].
  split; [cbn; repeat constructor; cbn; intuition discriminate|].
  repeat constructor.
Qed.

(** X10. Both buckets are removed with their contents when the stack is
    torn down, and no two buckets and no two queues of a stack have the
    same name. *)
Theorem X10_buckets_and_names (scope : Scope) (id : string)
  (props : option StagingStackProps) :
  exists s,
    StagingStack scope id props = Ok s /\
    length (buckets s) = 2%nat /\
    Forall (fun ib => s3.removalPolicy (snd ib) = cdk.DESTROY /\
                      s3.autoDeleteObjects (snd ib) = true) (buckets s) /\
    NoDup (bucketNames (resourceParameters s)) /\
    NoDup (queueNames (resourceParameters s)).
Proof.
  eexists. split; [run_constructor|].
  split; [reflexivity|].
  split; [repeat constructor|].
  split; cbn; repeat constructor; cbn; intuition discriminate.
Qed.

(** X11. The outputs of a stack are four, in this order: the DNS name of
    the load balancer, the address block of the network, and the ids of its
    public and of its private subnets, joined by commas; each of the two
    lists has one id per zone the network spans. *)
Theorem X11_outputs (scope : Scope) (id : string)
  (props : option StagingStackProps) :
  exists s v lb,
    StagingStack scope id props = Ok s /\
    vpcs s = [("Vpc", v)] /\
    loadBalancers s = [("ALB", lb)] /\
    outputs s =
      [ ("AlbDnsName", loadBalancerDnsName "ALB");
        ("VpcCidr", vpcCidrBlock "Vpc");
        ("PublicSubnets",
         cdk.Join "," (map ec2.subnetId (ec2.publicSubnets v)));
        ("PrivateSubnets",
         cdk.Join "," (map ec2.subnetId (ec2.privateSubnets v))) ] /\
    length (map ec2.subnetId (ec2.publicSubnets v)) =
      length (ec2.availabilityZones v) /\
    length (map ec2.subnetId (ec2.privateSubnets v)) =
      length (ec2.availabilityZones v).
Proof.
  do 3 eexists. split; [run_constructor|].
  split; [reflexivity|]. split; [reflexivity|]. split; [reflexivity|].
  match goal with
  | |- context [ec2.newVpc ?zs ?p] =>
      destruct (newVpc_two_tier zs p _ _ eq_refl eq_refl eq_refl)
        as (Hpub & Hpriv & _)
  end.
  rewrite !length_map, Hpub, Hpriv, !subnetsOfGroup_length.
  split; reflexivity.
Qed.

(** X12. The service is placed in the private subnets of the network and
    the load balancer in its public subnets: the subnets of the service
    are those the output PrivateSubnets lists, the subnets of the load
    balancer those the output PublicSubnets lists, one per zone the
    network spans each. *)
Theorem X12_placement (scope : Scope) (id : string)
  (props : option StagingStackProps) :
  exists s v,
    StagingStack scope id props = Ok s /\
    vpcs s = [("Vpc", v)] /\
    placement s "Service" = map ec2.subnetId (ec2.privateSubnets v) /\
    placement s "ALB" = map ec2.subnetId (ec2.publicSubnets v) /\
    lookup "PrivateSubnets" (outputs s) =
      Some (cdk.Join "," (placement s "Service")) /\
    lookup "PublicSubnets" (outputs s) =
      Some (cdk.Join "," (placement s "ALB")) /\
    length (placement s "Service") = length (ec2.availabilityZones v) /\
    length (placement s "ALB") = length (ec2.availabilityZones v).
Proof.
  do 2 eexists.
  split.
  { cbv -[ec2.newVpc ec2.selectDefault ec2.publicSubnets ec2.privateSubnets
          ec2.subnetId map nullish optChain stackRegion stackAccount
          availabilityZones stageRegion stageAccount].
    reflexivity. }
  split; [reflexivity|].
  cbv -[ec2.newVpc ec2.selectDefault ec2.publicSubnets ec2.privateSubnets
        ec2.availabilityZones ec2.subnetId map length
        nullish optChain stackRegion stackAccount
        availabilityZones stageRegion stageAccount].
  match goal with
  | |- context [ec2.newVpc ?zs ?p] =>
      destruct (newVpc_two_tier zs p _ _ eq_refl eq_refl eq_refl)
        as (Hpub & Hpriv & Hiso);
      set (v := ec2.newVpc zs p) in *
  end.
  assert (Hsel : ec2.selectDefault v = ec2.privateSubnets v).
  { unfold ec2.selectDefault. rewrite Hiso, Hpub, Hpriv.
    unfold ec2.subnetsOfGroup.
    now destruct (ec2.availabilityZones v). }
  rewrite Hsel, !length_map, Hpub, Hpriv, !subnetsOfGroup_length.
  repeat (split; [reflexivity|]). reflexivity.
Qed.
